(** * flagd: the gRPC front end (pkg/service/grpc_service.go)

    A shallow embedding of [GRPCService]: the five resolve handlers, the
    error classifier [HandleEvaluationError] and the lifecycle function
    [Serve], followed by the properties the specification states about
    them.

    Conventions.
    - A Go [string] is a sequence of bytes: [String.string], whose
      characters are the 8-bit [ascii].
    - A Go [error] result is [option error]: [None] is [nil].
    - A pointer that may be [nil] ([*structpb.Struct]) is an [option].
    - [int32] and [int64] are [Z]; the service never computes with them.
    - [float64] is kept as its IEEE-754 bit pattern; the service only
      copies it.
    - Calls that leave the service (the evaluator, the logger, the
      listener, the RPC server) are recorded, in order, in an event log. *)

From Stdlib Require Import String Ascii List ZArith NArith Bool DecimalString.
Import ListNotations.

Local Open Scope string_scope.
Local Open Scope list_scope.

Set Implicit Arguments.
Set Warnings "-register-all,-notation-for-abbreviation".

(* ===================================================================== *)
(** * Go packages the service imports *)
(* ===================================================================== *)

(** ** google.golang.org/grpc/codes *)
Module codes.

Inductive Code : Type :=
| OK | Canceled | Unknown | InvalidArgument | DeadlineExceeded | NotFound
| AlreadyExists | PermissionDenied | ResourceExhausted | FailedPrecondition
| Aborted | OutOfRange | Unimplemented | Internal | Unavailable | DataLoss
| Unauthenticated.

Definition eqb (a b : Code) : bool :=
  match a, b with
  | OK, OK | Canceled, Canceled | Unknown, Unknown
  | InvalidArgument, InvalidArgument | DeadlineExceeded, DeadlineExceeded
  | NotFound, NotFound | AlreadyExists, AlreadyExists
  | PermissionDenied, PermissionDenied
  | ResourceExhausted, ResourceExhausted
  | FailedPrecondition, FailedPrecondition | Aborted, Aborted
  | OutOfRange, OutOfRange | Unimplemented, Unimplemented
  | Internal, Internal | Unavailable, Unavailable | DataLoss, DataLoss
  | Unauthenticated, Unauthenticated => true
  | _, _ => false
  end.

(** [func (c Code) String() string] *)
Definition String (c : Code) : string :=
  match c with
  | OK => "OK" | Canceled => "Canceled" | Unknown => "Unknown"
  | InvalidArgument => "InvalidArgument"
  | DeadlineExceeded => "DeadlineExceeded" | NotFound => "NotFound"
  | AlreadyExists => "AlreadyExists"
  | PermissionDenied => "PermissionDenied"
  | ResourceExhausted => "ResourceExhausted"
  | FailedPrecondition => "FailedPrecondition" | Aborted => "Aborted"
  | OutOfRange => "OutOfRange" | Unimplemented => "Unimplemented"
  | Internal => "Internal" | Unavailable => "Unavailable"
  | DataLoss => "DataLoss" | Unauthenticated => "Unauthenticated"
  end.

End codes.

(** ** google.golang.org/protobuf/types/known/structpb: the value types *)
Module structpb.

(** IEEE-754 binary64, by its bit pattern. *)
Definition float64 := Z.

Inductive Value : Type :=
| NullValue
| NumberValue (bits : float64)
| StringValue (s : string)
| BoolValue (b : bool)
| StructValue (fields : list (string * Value))
| ListValue (values : list Value).

(** [Struct.Fields]; an association list stands for the Go map. *)
Definition Struct := list (string * Value).

End structpb.

(** ** The generated protocol messages (schema/v1) *)
Module gen.

(** [ErrorReason] is the Go field [Reason]; the responses below have a
    [Reason] of their own. *)
Record ErrorResponse : Type :=
  { ErrorCode : string; ErrorReason : string }.

(** The five request messages have the same two fields. *)
Record ResolveRequest : Type :=
  { FlagKey : string; Context : option structpb.Struct }.

Definition ResolveBooleanRequest := ResolveRequest.
Definition ResolveStringRequest := ResolveRequest.
Definition ResolveIntRequest := ResolveRequest.
Definition ResolveFloatRequest := ResolveRequest.
Definition ResolveObjectRequest := ResolveRequest.

Definition GetFlagKey (req : ResolveRequest) : string := FlagKey req.
Definition GetContext (req : ResolveRequest) : option structpb.Struct :=
  Context req.

(** The five response messages differ in the type of [Value] only. *)
Record ResolveResponse (T : Type) : Type :=
  { Value : T; Reason : string; Variant : string }.

Definition ResolveBooleanResponse := ResolveResponse bool.
Definition ResolveStringResponse := ResolveResponse string.
Definition ResolveIntResponse := ResolveResponse Z.
Definition ResolveFloatResponse := ResolveResponse structpb.float64.
Definition ResolveObjectResponse := ResolveResponse (option structpb.Struct).

(** Field assignments [res.Reason = r], [res.Value = v], [res.Variant = x]. *)
Definition set_Reason {T} (res : ResolveResponse T) (r : string) :=
  {| Value := Value res; Reason := r; Variant := Variant res |}.
Definition set_Value {T} (res : ResolveResponse T) (v : T) :=
  {| Value := v; Reason := Reason res; Variant := Variant res |}.
Definition set_Variant {T} (res : ResolveResponse T) (x : string) :=
  {| Value := Value res; Reason := Reason res; Variant := x |}.

End gen.

(** ** google.golang.org/protobuf/types/known/anypb *)
Module anypb.

(** An [Any] is represented by the message it packs; the only message the
    service packs is [gen.ErrorResponse]. *)
Record Any : Type := { Unpacked : gen.ErrorResponse }.

End anypb.

(** ** google.golang.org/grpc/status, and Go's [error] interface *)
Module status.

Record Status : Type :=
  { Code : codes.Code; Message : string; Details : list anypb.Any }.

(** [status.New(c, msg)] *)
Definition New (c : codes.Code) (msg : string) : Status :=
  {| Code := c; Message := msg; Details := [] |}.

End status.

(** The two implementations of [error] the service meets: a plain error
    value of a collaborator, and the [*status.Error] that [Status.Err]
    builds. *)
Inductive error : Type :=
| errors_New (text : string)
| status_Error (s : status.Status).

(** The interface method [Error() string]. *)
Definition Error (e : error) : string :=
  match e with
  | errors_New text => text
  | status_Error s =>
      "rpc error: code = " ++ codes.String (status.Code s)
        ++ " desc = " ++ status.Message s
  end.

(** [func (s *Status) Err() error]: [nil] for an OK status. *)
Definition status_Err (s : status.Status) : option error :=
  if codes.eqb (status.Code s) codes.OK then None
  else Some (status_Error s).

Section WithDetails.

(** [anypb.New], as far as the service depends on it: whether packing a
    message fails. *)
Variable marshal_error : gen.ErrorResponse -> option error.

Definition anypb_New (m : gen.ErrorResponse) : anypb.Any + error :=
  match marshal_error m with
  | Some e => inr e
  | None => inl {| anypb.Unpacked := m |}
  end.

(** The loop of [WithDetails] over its variadic argument. *)
Fixpoint append_details (p : status.Status) (details : list gen.ErrorResponse)
  : status.Status + error :=
  match details with
  | [] => inl p
  | detail :: rest =>
      match anypb_New detail with
      | inr e => inr e
      | inl m =>
          append_details
            {| status.Code := status.Code p;
               status.Message := status.Message p;
               status.Details := status.Details p ++ [m] |}
            rest
      end
  end.

(** [Status.WithDetails]: refused for an OK status, else every detail is
    packed and appended; the first packing failure is returned. *)
Definition status_WithDetails (s : status.Status)
  (details : list gen.ErrorResponse) : status.Status + error :=
  if codes.eqb (status.Code s) codes.OK
  then inr (errors_New "no error details for status with code OK")
  else append_details s details.

End WithDetails.

(** ** Dynamic values: Go's [interface{}]

    The evaluator hands out decoded JSON, so the dynamic types that occur
    are [nil], [bool], [float64], [string], [map[string]interface{}] and
    [[]interface{}]; [other_any] stands for a value of any type that
    [structpb.NewValue] has no case for, named by its [%T]. *)
Inductive any : Type :=
| nil_any
| bool_any (b : bool)
| float64_any (bits : structpb.float64)
| string_any (s : string)
| map_any (m : list (string * any))
| slice_any (l : list any)
| other_any (typeName : string).

(** ** pkg/eval: the evaluator interface, as far as the service calls it *)
Module eval.

Record IEvaluator : Type :=
  { ResolveBooleanValue :
      string -> option structpb.Struct -> bool * string * string * option error;
    ResolveStringValue :
      string -> option structpb.Struct -> string * string * string * option error;
    ResolveIntValue :
      string -> option structpb.Struct -> Z * string * string * option error;
    ResolveFloatValue :
      string -> option structpb.Struct
      -> structpb.float64 * string * string * option error;
    ResolveObjectValue :
      string -> option structpb.Struct
      -> list (string * any) * string * string * option error }.

End eval.

(** ** crypto/tls, net, grpc: handles the service only passes on *)
Module tls.
Inductive Config : Type := Handle (id : nat).
End tls.

Module net.
Inductive Listener : Type := Handle (fd : nat).
End net.

Module grpc.
Inductive TransportCredentials : Type := NewTLS (config : tls.Config).
Inductive ServerOption : Type := Creds (c : TransportCredentials).
End grpc.

(** [fmt.Sprintf("%d", n)] *)
Definition fmt_d (n : Z) : string := NilEmpty.string_of_int (Z.to_int n).

(* ===================================================================== *)
(** * Effects *)
(* ===================================================================== *)

Inductive Method : Type :=
| BooleanValue | StringValue | IntValue | FloatValue | ObjectValue.

(** What the service does to its collaborators, in program order. *)
Inductive Event : Type :=
| EvalCall (m : Method) (flagKey : string) (ctx : option structpb.Struct)
| LoggerError (msg : string)
| LoadTLSConfig (certPath keyPath : string)
| NewServer (opts : list grpc.ServerOption)
| RegisterServiceServer
| NetListen (network address : string)
| GoServe (lis : net.Listener)
| GracefulStop.

(** The body of a Go function whose result type is [R]: it reads and
    extends the event log, and either falls through to the next statement
    with a value ([inl]) or has executed [return r] ([inr]). *)
Definition Body (R A : Type) : Type := list Event -> list Event * (A + R).

(** A complete function: the log it leaves and the value it returns. *)
Definition Func (R : Type) : Type := list Event -> list Event * R.

Definition ret {R A} (a : A) : Body R A := fun log => (log, inl a).

Definition bind {R A B} (m : Body R A) (k : A -> Body R B) : Body R B :=
  fun log =>
    match m log with
    | (log', inl a) => k a log'
    | (log', inr r) => (log', inr r)
    end.

Definition emit {R} (e : Event) : Body R unit :=
  fun log => (log ++ [e], inl tt).

Definition return_ {R A} (r : R) : Body R A := fun log => (log, inr r).

(** Calling a function from inside a body. *)
Definition call {R A} (f : Func A) : Body R A :=
  fun log => let (log', a) := f log in (log', inl a).

(** [if err != nil { return wrap(err) }] after a fallible call. *)
Definition try {R A} (r : A + error) (wrap : error -> R) : Body R A :=
  match r with
  | inl a => ret a
  | inr err => return_ (wrap err)
  end.

(** A function is a body that ends in [return]. *)
Definition func {R} (body : Body R R) : Func R :=
  fun log =>
    match body log with
    | (log', inl r) => (log', r)
    | (log', inr r) => (log', r)
    end.

Declare Scope body_scope.
Delimit Scope body_scope with body.
Notation "x <- m ;; k" := (bind m (fun x => k))
  (at level 61, m at next level, right associativity) : body_scope.
Notation "m ;; k" := (bind m (fun _ => k))
  (at level 61, right associativity) : body_scope.
Local Open Scope body_scope.

(* ===================================================================== *)
(** * pkg/service: the gRPC service *)
(* ===================================================================== *)

Module log.
(** [*logrus.Entry]: the fields the entry adds to every line. *)
Record Entry : Type := { Data : list (string * string) }.
End log.

Module context.
(** The caller's context, as far as [Serve] observes it: whether its
    [Done] channel is ever closed. *)
Record Context : Type := { Cancelled : bool }.
End context.

Record GRPCServiceConfiguration : Type :=
  { Port : Z;
    ServerKeyPath : string;
    ServerCertPath : string;
    ServerSocketPath : string }.

(** [type GRPCService struct]; the field [Config] is the Go field
    [GRPCServiceConfiguration]. The embedded
    [gen.UnimplementedServiceServer] has no data. The three pointers are
    taken to be set, as every method dereferences them. *)
Record GRPCService : Type :=
  { Config : GRPCServiceConfiguration;
    Eval : eval.IEvaluator;
    Logger : log.Entry }.

(** [s.Eval = eval] *)
Definition set_Eval (s : GRPCService) (e : eval.IEvaluator) : GRPCService :=
  {| Config := Config s; Eval := e; Logger := Logger s |}.

(** How a call of [Serve] ends: it returns its [error] result, or it
    stays blocked on [<-gCtx.Done()]. *)
Inductive Outcome : Type :=
| Returned (err : option error)
| Blocked.

(** [errgroup.WithContext(ctx)]: the derived context is done once [ctx]
    is done or a function started with [g.Go] has returned a non-nil
    error. *)
Definition errgroup_Done (ctx : context.Context) (goResult : option error)
  : bool :=
  context.Cancelled ctx
  || match goResult with Some _ => true | None => false end.

Section Service.

(** The constants of pkg/model the classifier switches on. *)
Variable FlagNotFoundErrorCode : string.
Variable TypeMismatchErrorCode : string.

(** The collaborators outside this file. [grpcServer_Serve lis] is what
    [grpcServer.Serve(lis)] returns of its own accord: [Some err] when the
    accept loop fails, [None] when it serves until it is stopped. *)
Variable marshal_error : gen.ErrorResponse -> option error.
Variable structpb_NewStruct : list (string * any) -> structpb.Struct + error.
Variable loadTLSConfig : string -> string -> tls.Config + error.
Variable net_Listen : string -> string -> net.Listener + error.
Variable grpcServer_Serve : net.Listener -> option error.

Definition HandleEvaluationError (s : GRPCService) (err : error)
  (reason : string) : Func (option error) :=
  func (
    let statusCode := codes.Internal in
    let message := Error err in
    let statusCode :=
      if message =? FlagNotFoundErrorCode then codes.NotFound
      else if message =? TypeMismatchErrorCode then codes.InvalidArgument
      else statusCode in
    let st := status.New statusCode message in
    match status_WithDetails marshal_error st
            [ {| gen.ErrorCode := message; gen.ErrorReason := "ERROR" |} ] with
    | inr err =>
        emit (LoggerError (Error err)) ;;
        return_ (status_Err st)
    | inl stWD => return_ (status_Err stWD)
    end).

(** [s.Eval.M(req.GetFlagKey(), req.GetContext())] *)
Definition evaluate {R A} (m : Method)
  (f : string -> option structpb.Struct -> A) (req : gen.ResolveRequest)
  : Body R A :=
  emit (EvalCall m (gen.GetFlagKey req) (gen.GetContext req)) ;;
  ret (f (gen.GetFlagKey req) (gen.GetContext req)).

Definition ResolveBoolean (s : GRPCService) (req : gen.ResolveBooleanRequest)
  : Func (gen.ResolveBooleanResponse * option error) :=
  func (
    let res := {| gen.Value := false; gen.Reason := ""; gen.Variant := "" |} in
    r <- evaluate BooleanValue (eval.ResolveBooleanValue (Eval s)) req ;;
    let '(result, variant, reason, err) := r in
    match err with
    | Some err =>
        e <- call (HandleEvaluationError s err reason) ;;
        return_ (res, e)
    | None =>
        let res := gen.set_Reason res reason in
        let res := gen.set_Value res result in
        let res := gen.set_Variant res variant in
        return_ (res, None)
    end).

Definition ResolveString (s : GRPCService) (req : gen.ResolveStringRequest)
  : Func (gen.ResolveStringResponse * option error) :=
  func (
    let res := {| gen.Value := ""; gen.Reason := ""; gen.Variant := "" |} in
    r <- evaluate StringValue (eval.ResolveStringValue (Eval s)) req ;;
    let '(result, variant, reason, err) := r in
    match err with
    | Some err =>
        e <- call (HandleEvaluationError s err reason) ;;
        return_ (res, e)
    | None =>
        let res := gen.set_Reason res reason in
        let res := gen.set_Value res result in
        let res := gen.set_Variant res variant in
        return_ (res, None)
    end).

Definition ResolveInt (s : GRPCService) (req : gen.ResolveIntRequest)
  : Func (gen.ResolveIntResponse * option error) :=
  func (
    let res := {| gen.Value := 0%Z; gen.Reason := ""; gen.Variant := "" |} in
    r <- evaluate IntValue (eval.ResolveIntValue (Eval s)) req ;;
    let '(result, variant, reason, err) := r in
    match err with
    | Some err =>
        e <- call (HandleEvaluationError s err reason) ;;
        return_ (res, e)
    | None =>
        let res := gen.set_Reason res reason in
        let res := gen.set_Value res result in
        let res := gen.set_Variant res variant in
        return_ (res, None)
    end).

Definition ResolveFloat (s : GRPCService) (req : gen.ResolveFloatRequest)
  : Func (gen.ResolveFloatResponse * option error) :=
  func (
    let res := {| gen.Value := 0%Z : structpb.float64;
                  gen.Reason := ""; gen.Variant := "" |} in
    r <- evaluate FloatValue (eval.ResolveFloatValue (Eval s)) req ;;
    let '(result, variant, reason, err) := r in
    match err with
    | Some err =>
        e <- call (HandleEvaluationError s err reason) ;;
        return_ (res, e)
    | None =>
        let res := gen.set_Reason res reason in
        let res := gen.set_Value res result in
        let res := gen.set_Variant res variant in
        return_ (res, None)
    end).

Definition ResolveObject (s : GRPCService) (req : gen.ResolveObjectRequest)
  : Func (gen.ResolveObjectResponse * option error) :=
  func (
    let res := {| gen.Value := None; gen.Reason := ""; gen.Variant := "" |} in
    r <- evaluate ObjectValue (eval.ResolveObjectValue (Eval s)) req ;;
    let '(result, variant, reason, err) := r in
    match err with
    | Some err =>
        e <- call (HandleEvaluationError s err reason) ;;
        return_ (res, e)
    | None =>
        match structpb_NewStruct result with
        | inr err =>
            e <- call (HandleEvaluationError s err reason) ;;
            return_ (res, e)
        | inl val =>
            let res := gen.set_Reason res reason in
            let res := gen.set_Value res (Some val) in
            let res := gen.set_Variant res variant in
            return_ (res, None)
        end
    end).

(** [net.Listen(network, address)] *)
Definition listen {R} (network address : string)
  : Body R (net.Listener + error) :=
  emit (NetListen network address) ;;
  ret (net_Listen network address).

(** [Serve]. The result pairs the receiver, whose [Eval] field the call
    assigns, with the way the call ends. The goroutine started by [g.Go]
    runs [grpcServer.Serve(lis)]; its result reaches [Serve] only through
    the group's context, which is all the function waits for. *)
Definition Serve (s : GRPCService) (ctx : context.Context)
  (eval : eval.IEvaluator) : Func (GRPCService * Outcome) :=
  func (
    let s := set_Eval s eval in
    let fail := fun err : error => (s, Returned (Some err)) in
    let cfg := Config s in
    serverOpts <-
      (if negb (ServerCertPath cfg =? "") && negb (ServerKeyPath cfg =? "")
       then
         emit (LoadTLSConfig (ServerCertPath cfg) (ServerKeyPath cfg)) ;;
         config <- try (loadTLSConfig (ServerCertPath cfg) (ServerKeyPath cfg))
                       fail ;;
         ret [grpc.Creds (grpc.NewTLS config)]
       else ret []) ;;
    emit (NewServer serverOpts) ;;
    emit RegisterServiceServer ;;
    r <- (if negb (ServerSocketPath cfg =? "")
          then listen "unix" (ServerSocketPath cfg)
          else listen "tcp" (":" ++ fmt_d (Port cfg))) ;;
    lis <- try r fail ;;
    emit (GoServe lis) ;;
    if errgroup_Done ctx (grpcServer_Serve lis)
    then emit GracefulStop ;; return_ (s, Returned None)
    else return_ (s, Blocked)).

End Service.

(* ===================================================================== *)
(** * Observations on a call *)
(* ===================================================================== *)

(** The events of a call made on an empty log, and what it returns. *)
Definition events_of {R} (f : Func R) : list Event := fst (f []).
Definition result_of {R} (f : Func R) : R := snd (f []).

(** The status inside a returned [error], as [status.FromError] finds
    it. *)
Definition status_of (e : option error) : option status.Status :=
  match e with
  | Some (status_Error st) => Some st
  | _ => None
  end.

(** The returned error is a status that has [m] among its details. *)
Definition carries_detail (e : option error) (m : gen.ErrorResponse) : Prop :=
  exists st, e = Some (status_Error st)
             /\ In {| anypb.Unpacked := m |} (status.Details st).

(** The [net.Listen] calls in a log, as (network, address). *)
Fixpoint listens (log : list Event) : list (string * string) :=
  match log with
  | [] => []
  | NetListen network address :: rest => (network, address) :: listens rest
  | _ :: rest => listens rest
  end.

(** The evaluator calls in a log. *)
Fixpoint eval_calls (log : list Event)
  : list (Method * string * option structpb.Struct) :=
  match log with
  | [] => []
  | EvalCall m k c :: rest => (m, k, c) :: eval_calls rest
  | _ :: rest => eval_calls rest
  end.

(** The error path shared by the handlers: the response built so far is
    returned with what the classifier returns. *)
Definition error_path {T} (classifier : error -> string -> Func (option error))
  (res : gen.ResolveResponse T) (err : error) (reason : string)
  (log : list Event) : list Event * (gen.ResolveResponse T * option error) :=
  (fst (classifier err reason log), (res, snd (classifier err reason log))).

(** The shape of a primitive handler's run: one evaluator call, then
    either the error path on the zero response or the filled response. *)
Definition primitive_run {T} (classifier : error -> string -> Func (option error))
  (m : Method) (zero : T)
  (f : string -> option structpb.Struct -> T * string * string * option error)
  (req : gen.ResolveRequest) (log : list Event)
  : list Event * (gen.ResolveResponse T * option error) :=
  let log1 := log ++ [EvalCall m (gen.FlagKey req) (gen.Context req)] in
  let zero_res := {| gen.Value := zero; gen.Reason := ""; gen.Variant := "" |} in
  match f (gen.FlagKey req) (gen.Context req) with
  | (result, variant, reason, Some err) =>
      error_path classifier zero_res err reason log1
  | (result, variant, reason, None) =>
      (log1,
       ({| gen.Value := result; gen.Reason := reason; gen.Variant := variant |},
        None))
  end.

(** The returned error is the status the classifier builds for [err]:
    the error's text as message, and the code the [switch] selects for
    that text. *)
Definition classified (FlagNotFoundErrorCode TypeMismatchErrorCode : string)
  (e : option error) (err : error) : Prop :=
  exists st,
    e = Some (status_Error st)
    /\ status.Message st = Error err
    /\ status.Code st
       = (if Error err =? FlagNotFoundErrorCode then codes.NotFound
          else if Error err =? TypeMismatchErrorCode
               then codes.InvalidArgument
               else codes.Internal).

(** The same service with another [Port] in its configuration. *)
Definition with_Port (s : GRPCService) (port : Z) : GRPCService :=
  {| Config :=
       {| Port := port;
          ServerKeyPath := ServerKeyPath (Config s);
          ServerCertPath := ServerCertPath (Config s);
          ServerSocketPath := ServerSocketPath (Config s) |};
     Eval := Eval s;
     Logger := Logger s |}.

(* ===================================================================== *)
(** * The collaborators, concretely

    Executable stand-ins for the code outside this file, used to run the
    service on concrete inputs. The theorems below hold for every choice
    of collaborators; these are one choice. *)
(* ===================================================================== *)

(** ** unicode/utf8 *)
Module utf8.

Definition byte (c : ascii) : N := N_of_ascii c.

Definition between (lo hi : N) (c : ascii) : bool :=
  ((lo <=? byte c) && (byte c <=? hi))%N.

(** A continuation byte, 10xxxxxx. *)
Definition cont (c : ascii) : bool := between 128 191 c.

(** [utf8.ValidString]: well-formed UTF-8 (no overlong forms, no
    surrogates, nothing above U+10FFFF). *)
Fixpoint ValidString (s : string) : bool :=
  match s with
  | EmptyString => true
  | String c0 r0 =>
      if (byte c0 <? 128)%N then ValidString r0
      else if between 194 223 c0 then
        match r0 with
        | String c1 r1 => cont c1 && ValidString r1
        | _ => false
        end
      else if between 224 239 c0 then
        match r0 with
        | String c1 (String c2 r2) =>
            (if (byte c0 =? 224)%N then between 160 191 c1
             else if (byte c0 =? 237)%N then between 128 159 c1
             else cont c1)
            && cont c2 && ValidString r2
        | _ => false
        end
      else if between 240 244 c0 then
        match r0 with
        | String c1 (String c2 (String c3 r3)) =>
            (if (byte c0 =? 240)%N then between 144 191 c1
             else if (byte c0 =? 244)%N then between 128 143 c1
             else cont c1)
            && cont c2 && cont c3 && ValidString r3
        | _ => false
        end
      else false
  end.

End utf8.

Module Concrete.

(** pkg/model/errors.go *)
Definition FlagNotFoundErrorCode : string := "FLAG_NOT_FOUND".
Definition TypeMismatchErrorCode : string := "TYPE_MISMATCH".

(** Packing a proto3 message fails when one of its string fields is not
    valid UTF-8. *)
Definition marshal_error (m : gen.ErrorResponse) : option error :=
  if utf8.ValidString (gen.ErrorCode m) && utf8.ValidString (gen.ErrorReason m)
  then None
  else Some (errors_New "string field contains invalid UTF-8").

(** [structpb.NewValue] and [structpb.NewStruct], the fields visited in
    the order of the association list. *)
Fixpoint NewValue (v : any) : structpb.Value + error :=
  match v with
  | nil_any => inl structpb.NullValue
  | bool_any b => inl (structpb.BoolValue b)
  | float64_any x => inl (structpb.NumberValue x)
  | string_any x =>
      if utf8.ValidString x then inl (structpb.StringValue x)
      else inr (errors_New "proto: invalid UTF-8 in string")
  | map_any m =>
      let fix fields (m : list (string * any)) : structpb.Struct + error :=
        match m with
        | [] => inl []
        | (k, x) :: rest =>
            if utf8.ValidString k then
              match NewValue x with
              | inr e => inr e
              | inl y =>
                  match fields rest with
                  | inr e => inr e
                  | inl ys => inl ((k, y) :: ys)
                  end
              end
            else inr (errors_New "proto: invalid UTF-8 in string")
        end in
      match fields m with
      | inl fs => inl (structpb.StructValue fs)
      | inr e => inr e
      end
  | slice_any l =>
      let fix values (l : list any) : list structpb.Value + error :=
        match l with
        | [] => inl []
        | x :: rest =>
            match NewValue x with
            | inr e => inr e
            | inl y =>
                match values rest with
                | inr e => inr e
                | inl ys => inl (y :: ys)
                end
            end
        end in
      match values l with
      | inl vs => inl (structpb.ListValue vs)
      | inr e => inr e
      end
  | other_any typeName => inr (errors_New ("proto: invalid type: " ++ typeName))
  end.

Definition NewStruct (v : list (string * any)) : structpb.Struct + error :=
  match NewValue (map_any v) with
  | inl (structpb.StructValue fs) => inl fs
  | inl _ => inl []
  | inr e => inr e
  end.

(** A key/certificate loader that knows one good pair of files. *)
Definition loadTLSConfig (certPath keyPath : string) : tls.Config + error :=
  if (certPath =? "/etc/flagd/tls.crt") && (keyPath =? "/etc/flagd/tls.key")
  then inl (tls.Handle 1)
  else inr (errors_New "open: no such file or directory").

(** A host on which port 8013 is taken and every other address is free. *)
Definition net_Listen (network address : string) : net.Listener + error :=
  if (network =? "tcp") && (address =? ":8013")
  then inr (errors_New "listen tcp :8013: bind: address already in use")
  else inl (net.Handle 3).

(** An accept loop that serves until it is stopped, and one that fails. *)
Definition serve_until_stopped (lis : net.Listener) : option error := None.
Definition accept_fails (lis : net.Listener) : option error :=
  Some (errors_New "accept unix /tmp/flagd.sock: use of closed network connection").

(** An evaluator with one flag of each type; any other key is not found,
    and the key of a flag of another type is a type mismatch. *)
Definition known (flagKey : string) : bool :=
  (flagKey =? "myBoolFlag") || (flagKey =? "myStringFlag")
  || (flagKey =? "myIntFlag") || (flagKey =? "myFloatFlag")
  || (flagKey =? "myObjectFlag") || (flagKey =? "myBadObjectFlag").

Definition resolve {T} (own : string) (v zero : T) (flagKey : string)
  (ctx : option structpb.Struct) : T * string * string * option error :=
  if flagKey =? own then (v, "variantA", "STATIC", None)
  else if known flagKey
  then (zero, "", "ERROR", Some (errors_New TypeMismatchErrorCode))
  else (zero, "", "ERROR", Some (errors_New FlagNotFoundErrorCode)).

Definition evaluator : eval.IEvaluator :=
  {| eval.ResolveBooleanValue := resolve "myBoolFlag" true false;
     eval.ResolveStringValue := resolve "myStringFlag" "blue" "";
     eval.ResolveIntValue := resolve "myIntFlag" 42%Z 0%Z;
     eval.ResolveFloatValue :=
       resolve "myFloatFlag" 4609434218613702656%Z 0%Z;
     eval.ResolveObjectValue :=
       fun flagKey ctx =>
         if flagKey =? "myBadObjectFlag"
         then ([("a", float64_any 4607182418800017408%Z);
                ("b", slice_any [other_any "chan int"])],
               "variantA", "STATIC", None)
         else resolve "myObjectFlag"
                [("a", float64_any 4607182418800017408%Z);
                 ("b", string_any "x")] [] flagKey ctx |}.

(** An evaluator that hands back partial outputs together with its
    error. *)
Definition failing_evaluator : eval.IEvaluator :=
  {| eval.ResolveBooleanValue :=
       fun _ _ => (true, "on", "ERROR", Some (errors_New "GENERAL"));
     eval.ResolveStringValue :=
       fun _ _ => ("blue", "on", "ERROR", Some (errors_New "GENERAL"));
     eval.ResolveIntValue :=
       fun _ _ => (42%Z, "on", "ERROR", Some (errors_New "GENERAL"));
     eval.ResolveFloatValue :=
       fun _ _ => (4609434218613702656%Z, "on", "ERROR",
                   Some (errors_New "GENERAL"));
     eval.ResolveObjectValue :=
       fun _ _ => ([("a", bool_any true)], "on", "ERROR",
                   Some (errors_New "GENERAL")) |}.

Definition service (cfg : GRPCServiceConfiguration) (e : eval.IEvaluator)
  : GRPCService :=
  {| Config := cfg; Eval := e; Logger := {| log.Data := [("component", "service")] |} |}.

Definition tcp_config : GRPCServiceConfiguration :=
  {| Port := 8014; ServerKeyPath := ""; ServerCertPath := "";
     ServerSocketPath := "" |}.

(** A socket path together with a port (the taken one). *)
Definition unix_config : GRPCServiceConfiguration :=
  {| Port := 8013; ServerKeyPath := ""; ServerCertPath := "";
     ServerSocketPath := "/tmp/flagd.sock" |}.

(** A certificate without a key. *)
Definition half_tls_config : GRPCServiceConfiguration :=
  {| Port := 8014; ServerKeyPath := "";
     ServerCertPath := "/etc/flagd/tls.crt"; ServerSocketPath := "" |}.

(** The good pair of files, over TCP. *)
Definition tls_config : GRPCServiceConfiguration :=
  {| Port := 8014; ServerKeyPath := "/etc/flagd/tls.key";
     ServerCertPath := "/etc/flagd/tls.crt"; ServerSocketPath := "" |}.

(** A socket path with files that do not load. *)
Definition bad_tls_unix_config : GRPCServiceConfiguration :=
  {| Port := 8014; ServerKeyPath := "/tmp/missing.key";
     ServerCertPath := "/tmp/missing.crt";
     ServerSocketPath := "/tmp/flagd.sock" |}.

(** An evaluator on which every flag of every type resolves. *)
Definition static_evaluator : eval.IEvaluator :=
  {| eval.ResolveBooleanValue :=
       fun _ _ => (true, "on", "TARGETING_MATCH", None);
     eval.ResolveStringValue :=
       fun _ _ => ("blue", "on", "TARGETING_MATCH", None);
     eval.ResolveIntValue :=
       fun _ _ => (42%Z, "on", "TARGETING_MATCH", None);
     eval.ResolveFloatValue :=
       fun _ _ => (4609434218613702656%Z, "on", "TARGETING_MATCH", None);
     eval.ResolveObjectValue :=
       fun _ _ => ([("a", bool_any true)], "on", "TARGETING_MATCH", None) |}.

(** A converter that refuses everything. *)
Definition no_NewStruct (v : list (string * any)) : structpb.Struct + error :=
  inr (errors_New "proto: invalid type: chan int").

(** TCP on the port that is taken. *)
Definition busy_port_config : GRPCServiceConfiguration :=
  {| Port := 8013; ServerKeyPath := ""; ServerCertPath := "";
     ServerSocketPath := "" |}.

(** A message that is not valid UTF-8: the single byte 0xFF. *)
Definition invalid_utf8 : string := String "255"%char "".

Definition never_cancelled : context.Context := {| context.Cancelled := false |}.
Definition cancelled : context.Context := {| context.Cancelled := true |}.

End Concrete.

(* ===================================================================== *)
(** * Properties *)
(* ===================================================================== *)

Section Properties.

Variable FlagNotFoundErrorCode : string.
Variable TypeMismatchErrorCode : string.
Variable marshal_error : gen.ErrorResponse -> option error.
Variable structpb_NewStruct : list (string * any) -> structpb.Struct + error.

Local Notation HEE :=
  (HandleEvaluationError FlagNotFoundErrorCode TypeMismatchErrorCode
     marshal_error).

(** The code the [switch] selects for a message. *)
Local Notation code_for message :=
  (if message =? FlagNotFoundErrorCode then codes.NotFound
   else if message =? TypeMismatchErrorCode then codes.InvalidArgument
   else codes.Internal).

(** ** The error classifier *)

(** One call of the classifier, spelled out on its two paths. *)
Lemma HandleEvaluationError_run (s : GRPCService) (err : error)
  (reason : string) (log : list Event) :
  let message := Error err in
  let payload := {| gen.ErrorCode := message; gen.ErrorReason := "ERROR" |} in
  HEE s err reason log =
  match marshal_error payload with
  | None =>
      (log,
       Some (status_Error
               {| status.Code := code_for message;
                  status.Message := message;
                  status.Details := [ {| anypb.Unpacked := payload |} ] |}))
  | Some e =>
      (log ++ [LoggerError (Error e)],
       Some (status_Error (status.New (code_for message) message)))
  end.
Proof.
  intros message payload.
  unfold HandleEvaluationError, func, status_WithDetails, status_Err.
  fold message. fold payload.
  destruct (message =? FlagNotFoundErrorCode);
    [| destruct (message =? TypeMismatchErrorCode)];
    cbn; unfold anypb_New;
    destruct (marshal_error payload); reflexivity.
Qed.

(** The classifier never returns [nil]. *)
Lemma HandleEvaluationError_not_nil (s : GRPCService) (err : error)
  (reason : string) (log : list Event) :
  exists st, snd (HEE s err reason log) = Some (status_Error st).
Proof.
  pose proof (HandleEvaluationError_run s err reason log) as H.
  cbv zeta in H. rewrite H.
  destruct (marshal_error _); eexists; reflexivity.
Qed.

(** The returned status has the error's message as its message. *)
Lemma HandleEvaluationError_keeps_message (s : GRPCService) (err : error)
  (reason : string) (log : list Event) :
  exists st, snd (HEE s err reason log) = Some (status_Error st)
             /\ status.Message st = Error err.
Proof.
  pose proof (HandleEvaluationError_run s err reason log) as H.
  cbv zeta in H. rewrite H.
  destruct (marshal_error _); eexists; split; reflexivity.
Qed.

(** C1. For every evaluator error given to [HandleEvaluationError] the
    call returns a status whose code is NotFound when the error's message
    is the flag-not-found code, InvalidArgument when it is the
    type-mismatch code, and Internal for every other message. The two
    codes are distinct constants. *)
Theorem HandleEvaluationError_status_code
  (distinct : FlagNotFoundErrorCode <> TypeMismatchErrorCode)
  (s : GRPCService) (err : error) (reason : string) (log : list Event) :
  exists st,
    snd (HEE s err reason log) = Some (status_Error st)
    /\ (Error err = FlagNotFoundErrorCode ->
        status.Code st = codes.NotFound)
    /\ (Error err = TypeMismatchErrorCode ->
        status.Code st = codes.InvalidArgument)
    /\ (Error err <> FlagNotFoundErrorCode ->
        Error err <> TypeMismatchErrorCode ->
        status.Code st = codes.Internal).
Proof.
  pose proof (HandleEvaluationError_run s err reason log) as H.
  cbv zeta in H. rewrite H. clear H.
  set (message := Error err).
  assert (Hcode :
    (message = FlagNotFoundErrorCode -> code_for message = codes.NotFound)
    /\ (message = TypeMismatchErrorCode ->
        code_for message = codes.InvalidArgument)
    /\ (message <> FlagNotFoundErrorCode ->
        message <> TypeMismatchErrorCode ->
        code_for message = codes.Internal)).
  { destruct (String.eqb_spec message FlagNotFoundErrorCode) as [E1 | N1].
    - repeat split; [ | contradiction ].
      intro E2. exfalso. apply distinct. congruence.
    - destruct (String.eqb_spec message TypeMismatchErrorCode) as [E2 | N2];
        repeat split; intros; try reflexivity; contradiction. }
  destruct (marshal_error _); eexists; (split; [reflexivity | exact Hcode]).
Qed.

(** C2, as amended. Whatever the [reason] argument is: when packing the
    detail payload succeeds, the returned status carries exactly one
    detail, whose errorCode is the error's message and whose reason is
    the fixed string ERROR; when packing fails, the failure is logged and
    the returned status carries no detail. *)
Theorem HandleEvaluationError_details
  (s : GRPCService) (err : error) (reason : string) (log : list Event) :
  let payload :=
    {| gen.ErrorCode := Error err; gen.ErrorReason := "ERROR" |} in
  (marshal_error payload = None ->
   fst (HEE s err reason log) = log
   /\ exists st,
        snd (HEE s err reason log) = Some (status_Error st)
        /\ status.Details st = [ {| anypb.Unpacked := payload |} ]
        /\ carries_detail (snd (HEE s err reason log)) payload)
  /\ (forall e, marshal_error payload = Some e ->
      fst (HEE s err reason log) = log ++ [LoggerError (Error e)]
      /\ exists st,
           snd (HEE s err reason log) = Some (status_Error st)
           /\ status.Details st = []).
Proof.
  intro payload.
  pose proof (HandleEvaluationError_run s err reason log) as H.
  cbv zeta in H. fold payload in H. rewrite H. clear H.
  split.
  - intros Hok. rewrite Hok. split; [reflexivity |].
    eexists. split; [reflexivity |]. split; [reflexivity |].
    eexists. split; [reflexivity |]. left. reflexivity.
  - intros e Hfail. rewrite Hfail. split; [reflexivity |].
    eexists. split; reflexivity.
Qed.

(** The classifier reads nothing but the text of the error: two errors
    with the same [Error()] string, a plain error and a status error for
    instance, are classified alike, whatever the receiver and the reason
    argument. The code of a status error it is given is not looked at. *)
Theorem HandleEvaluationError_text_only (s s' : GRPCService)
  (err err' : error) (reason reason' : string) (log : list Event) :
  Error err = Error err' ->
  HEE s err reason log = HEE s' err' reason' log.
Proof.
  intro Htext.
  pose proof (HandleEvaluationError_run s err reason log) as H.
  pose proof (HandleEvaluationError_run s' err' reason' log) as H'.
  cbv zeta in H, H'. rewrite H, H', Htext. reflexivity.
Qed.

(** What the classifier returns is [classified]. *)
Lemma HandleEvaluationError_classified (s : GRPCService) (err : error)
  (reason : string) (log : list Event) :
  classified FlagNotFoundErrorCode TypeMismatchErrorCode
    (snd (HEE s err reason log)) err.
Proof.
  pose proof (HandleEvaluationError_run s err reason log) as H.
  cbv zeta in H. rewrite H. unfold classified.
  destruct (marshal_error _); eexists; repeat split.
Qed.

End Properties.

(** C10. For every evaluator error, [HandleEvaluationError] returns a
    non-nil error, a status whose message is the error's message exactly;
    its code and message are the same whether or not the detail payload
    could be attached, so the fallback bare status keeps both. *)
Theorem HandleEvaluationError_message
  (FlagNotFoundErrorCode TypeMismatchErrorCode : string)
  (marshal_error marshal_error' : gen.ErrorResponse -> option error)
  (s : GRPCService) (err : error) (reason : string) (log : list Event) :
  exists st st',
    snd (HandleEvaluationError FlagNotFoundErrorCode TypeMismatchErrorCode
           marshal_error s err reason log) = Some (status_Error st)
    /\ snd (HandleEvaluationError FlagNotFoundErrorCode TypeMismatchErrorCode
              marshal_error' s err reason log) = Some (status_Error st')
    /\ status.Message st = Error err
    /\ status.Message st' = Error err
    /\ status.Code st' = status.Code st.
Proof.
  pose proof (HandleEvaluationError_run FlagNotFoundErrorCode
                TypeMismatchErrorCode marshal_error s err reason log) as H1.
  pose proof (HandleEvaluationError_run FlagNotFoundErrorCode
                TypeMismatchErrorCode marshal_error' s err reason log) as H2.
  cbv zeta in H1, H2. rewrite H1, H2.
  destruct (marshal_error _), (marshal_error' _);
    do 2 eexists; repeat split; reflexivity.
Qed.

(** ** The resolve handlers *)

Section Handlers.

Variable FlagNotFoundErrorCode : string.
Variable TypeMismatchErrorCode : string.
Variable marshal_error : gen.ErrorResponse -> option error.
Variable structpb_NewStruct : list (string * any) -> structpb.Struct + error.

Local Notation HEE :=
  (HandleEvaluationError FlagNotFoundErrorCode TypeMismatchErrorCode
     marshal_error).
Local Notation ResolveBoolean' :=
  (ResolveBoolean FlagNotFoundErrorCode TypeMismatchErrorCode marshal_error).
Local Notation ResolveString' :=
  (ResolveString FlagNotFoundErrorCode TypeMismatchErrorCode marshal_error).
Local Notation ResolveInt' :=
  (ResolveInt FlagNotFoundErrorCode TypeMismatchErrorCode marshal_error).
Local Notation ResolveFloat' :=
  (ResolveFloat FlagNotFoundErrorCode TypeMismatchErrorCode marshal_error).
Local Notation ResolveObject' :=
  (ResolveObject FlagNotFoundErrorCode TypeMismatchErrorCode marshal_error
     structpb_NewStruct).

Ltac run_handler :=
  intros;
  unfold primitive_run, error_path, func, evaluate, bind, emit, ret, call,
    return_, gen.GetFlagKey, gen.GetContext;
  cbn;
  repeat match goal with
         | |- context [match ?f (gen.FlagKey ?r) (gen.Context ?r) with _ => _ end] =>
             destruct (f (gen.FlagKey r) (gen.Context r)) as [[[? ?] ?] [?|]]
         | |- context [HandleEvaluationError ?a ?b ?c ?d ?e ?f ?g] =>
             destruct (HandleEvaluationError a b c d e f g)
         end;
  cbn; try reflexivity.

Lemma ResolveBoolean_run s req log :
  ResolveBoolean' s req log
  = primitive_run (HEE s) BooleanValue false
      (eval.ResolveBooleanValue (Eval s)) req log.
Proof. unfold ResolveBoolean. run_handler. Qed.

Lemma ResolveString_run s req log :
  ResolveString' s req log
  = primitive_run (HEE s) StringValue ""
      (eval.ResolveStringValue (Eval s)) req log.
Proof. unfold ResolveString. run_handler. Qed.

Lemma ResolveInt_run s req log :
  ResolveInt' s req log
  = primitive_run (HEE s) IntValue 0%Z
      (eval.ResolveIntValue (Eval s)) req log.
Proof. unfold ResolveInt. run_handler. Qed.

Lemma ResolveFloat_run s req log :
  ResolveFloat' s req log
  = primitive_run (HEE s) FloatValue (0%Z : structpb.float64)
      (eval.ResolveFloatValue (Eval s)) req log.
Proof. unfold ResolveFloat. run_handler. Qed.

(** The run of the object handler, with its conversion step. *)
Lemma ResolveObject_run s req log :
  ResolveObject' s req log
  = let log1 :=
      log ++ [EvalCall ObjectValue (gen.FlagKey req) (gen.Context req)] in
    let zero_res :=
      {| gen.Value := None; gen.Reason := ""; gen.Variant := "" |} in
    match eval.ResolveObjectValue (Eval s) (gen.FlagKey req) (gen.Context req)
    with
    | (result, variant, reason, Some err) =>
        error_path (HEE s) zero_res err reason log1
    | (result, variant, reason, None) =>
        match structpb_NewStruct result with
        | inr err => error_path (HEE s) zero_res err reason log1
        | inl val =>
            (log1,
             ({| gen.Value := Some val; gen.Reason := reason;
                 gen.Variant := variant |}, None))
        end
    end.
Proof.
  unfold ResolveObject. run_handler.
  destruct (structpb_NewStruct _); cbn; [reflexivity |].
  destruct (HandleEvaluationError _ _ _ _ _ _ _). reflexivity.
Qed.

Lemma eval_calls_app (l1 l2 : list Event) :
  eval_calls (l1 ++ l2) = eval_calls l1 ++ eval_calls l2.
Proof.
  induction l1 as [| e l1 IH]; [reflexivity |].
  destruct e; cbn; rewrite ?IH; reflexivity.
Qed.

(** The classifier does not call the evaluator. *)
Lemma HandleEvaluationError_eval_calls s err reason log :
  eval_calls (fst (HEE s err reason log)) = eval_calls log.
Proof.
  pose proof (HandleEvaluationError_run FlagNotFoundErrorCode
                TypeMismatchErrorCode marshal_error s err reason log) as H.
  cbv zeta in H. rewrite H.
  destruct (marshal_error _); cbn; [| reflexivity].
  rewrite eval_calls_app. cbn. apply app_nil_r.
Qed.

Lemma primitive_run_eval_calls {T} s m (zero : T) f req :
  eval_calls (fst (primitive_run (HEE s) m zero f req []))
  = [(m, gen.FlagKey req, gen.Context req)].
Proof.
  unfold primitive_run, error_path.
  destruct (f _ _) as [[[result variant] reason] [err |]]; cbn;
    [apply HandleEvaluationError_eval_calls | reflexivity].
Qed.

(** C4, as amended. No handler inspects the flag key: for every request,
    an empty flagKey included, each of the five handlers calls the
    evaluator exactly once, with the request's flagKey and context as
    they came in. *)
Theorem flagKey_forwarded_unchecked (s : GRPCService)
  (req : gen.ResolveRequest) :
  eval_calls (events_of (ResolveBoolean' s req))
  = [(BooleanValue, gen.GetFlagKey req, gen.GetContext req)]
  /\ eval_calls (events_of (ResolveString' s req))
     = [(StringValue, gen.GetFlagKey req, gen.GetContext req)]
  /\ eval_calls (events_of (ResolveInt' s req))
     = [(IntValue, gen.GetFlagKey req, gen.GetContext req)]
  /\ eval_calls (events_of (ResolveFloat' s req))
     = [(FloatValue, gen.GetFlagKey req, gen.GetContext req)]
  /\ eval_calls (events_of (ResolveObject' s req))
     = [(ObjectValue, gen.GetFlagKey req, gen.GetContext req)].
Proof.
  unfold events_of, gen.GetFlagKey, gen.GetContext.
  rewrite ResolveBoolean_run, ResolveString_run, ResolveInt_run,
    ResolveFloat_run, ResolveObject_run.
  repeat split; try apply primitive_run_eval_calls.
  cbv zeta. unfold error_path.
  destruct (eval.ResolveObjectValue _ _ _) as [[[result variant] reason] [err |]];
    cbn; [apply HandleEvaluationError_eval_calls |].
  destruct (structpb_NewStruct result); cbn;
    [reflexivity | apply HandleEvaluationError_eval_calls].
Qed.

Ltac primitive_success H :=
  unfold primitive_run, gen.GetFlagKey, gen.GetContext in *;
  rewrite H; reflexivity.

(** C6. For each of the four primitive resolve operations: if the
    evaluator returns value v, variant variantA, reason STATIC and a nil
    error, the operation returns the response with value v, variant
    variantA and reason STATIC, and a nil error. *)
Theorem primitive_resolve_success (s : GRPCService) (log : list Event) :
  (forall req v,
      eval.ResolveBooleanValue (Eval s) (gen.GetFlagKey req) (gen.GetContext req)
      = (v, "variantA", "STATIC", None) ->
      snd (ResolveBoolean' s req log)
      = ({| gen.Value := v; gen.Reason := "STATIC"; gen.Variant := "variantA" |},
         None))
  /\ (forall req v,
      eval.ResolveStringValue (Eval s) (gen.GetFlagKey req) (gen.GetContext req)
      = (v, "variantA", "STATIC", None) ->
      snd (ResolveString' s req log)
      = ({| gen.Value := v; gen.Reason := "STATIC"; gen.Variant := "variantA" |},
         None))
  /\ (forall req v,
      eval.ResolveIntValue (Eval s) (gen.GetFlagKey req) (gen.GetContext req)
      = (v, "variantA", "STATIC", None) ->
      snd (ResolveInt' s req log)
      = ({| gen.Value := v; gen.Reason := "STATIC"; gen.Variant := "variantA" |},
         None))
  /\ (forall req v,
      eval.ResolveFloatValue (Eval s) (gen.GetFlagKey req) (gen.GetContext req)
      = (v, "variantA", "STATIC", None) ->
      snd (ResolveFloat' s req log)
      = ({| gen.Value := v; gen.Reason := "STATIC"; gen.Variant := "variantA" |},
         None)).
Proof.
  repeat split; intros req v H.
  - rewrite ResolveBoolean_run. primitive_success H.
  - rewrite ResolveString_run. primitive_success H.
  - rewrite ResolveInt_run. primitive_success H.
  - rewrite ResolveFloat_run. primitive_success H.
Qed.

Ltac evaluator_failure H :=
  unfold primitive_run, error_path, gen.GetFlagKey, gen.GetContext in *;
  cbv zeta; rewrite H; cbn;
  match goal with
  | |- context [HandleEvaluationError ?a ?b ?c ?s ?e ?r ?l] =>
      destruct (HandleEvaluationError_not_nil a b c s e r l) as [st Hst];
      exists st; rewrite Hst; reflexivity
  end.

(** C9. For every resolve operation, when the evaluator returns a non-nil
    error, whatever value, variant and reason come with it, the response
    returned next to the error status is the zero response: value and
    variant are unset, nothing of the evaluator's outputs is copied. *)
Theorem error_response_is_zero (s : GRPCService) (req : gen.ResolveRequest)
  (log : list Event) (variant reason : string) (err : error) :
  (forall v,
      eval.ResolveBooleanValue (Eval s) (gen.GetFlagKey req) (gen.GetContext req)
      = (v, variant, reason, Some err) ->
      exists st,
        snd (ResolveBoolean' s req log)
        = ({| gen.Value := false; gen.Reason := ""; gen.Variant := "" |},
           Some (status_Error st)))
  /\ (forall v,
      eval.ResolveStringValue (Eval s) (gen.GetFlagKey req) (gen.GetContext req)
      = (v, variant, reason, Some err) ->
      exists st,
        snd (ResolveString' s req log)
        = ({| gen.Value := ""; gen.Reason := ""; gen.Variant := "" |},
           Some (status_Error st)))
  /\ (forall v,
      eval.ResolveIntValue (Eval s) (gen.GetFlagKey req) (gen.GetContext req)
      = (v, variant, reason, Some err) ->
      exists st,
        snd (ResolveInt' s req log)
        = ({| gen.Value := 0%Z; gen.Reason := ""; gen.Variant := "" |},
           Some (status_Error st)))
  /\ (forall v,
      eval.ResolveFloatValue (Eval s) (gen.GetFlagKey req) (gen.GetContext req)
      = (v, variant, reason, Some err) ->
      exists st,
        snd (ResolveFloat' s req log)
        = ({| gen.Value := 0%Z : structpb.float64; gen.Reason := "";
              gen.Variant := "" |},
           Some (status_Error st)))
  /\ (forall v,
      eval.ResolveObjectValue (Eval s) (gen.GetFlagKey req) (gen.GetContext req)
      = (v, variant, reason, Some err) ->
      exists st,
        snd (ResolveObject' s req log)
        = ({| gen.Value := None; gen.Reason := ""; gen.Variant := "" |},
           Some (status_Error st))).
Proof.
  repeat split; intros v H.
  - rewrite ResolveBoolean_run. evaluator_failure H.
  - rewrite ResolveString_run. evaluator_failure H.
  - rewrite ResolveInt_run. evaluator_failure H.
  - rewrite ResolveFloat_run. evaluator_failure H.
  - rewrite ResolveObject_run. evaluator_failure H.
Qed.

(** C8. In the object handler, when the evaluator succeeds and the
    conversion of its mapping fails, the call is what the classifier
    makes of the conversion error and the evaluator's reason: it returns
    the zero response and a status error whose message is the conversion
    error's. *)
Theorem conversion_failure_is_classified (s : GRPCService)
  (req : gen.ResolveRequest) (log : list Event)
  (result : list (string * any)) (variant reason : string) (err : error) :
  eval.ResolveObjectValue (Eval s) (gen.GetFlagKey req) (gen.GetContext req)
  = (result, variant, reason, None) ->
  structpb_NewStruct result = inr err ->
  let log1 :=
    log ++ [EvalCall ObjectValue (gen.GetFlagKey req) (gen.GetContext req)] in
  fst (ResolveObject' s req log) = fst (HEE s err reason log1)
  /\ snd (ResolveObject' s req log)
     = ({| gen.Value := None; gen.Reason := ""; gen.Variant := "" |},
        snd (HEE s err reason log1))
  /\ exists st,
       snd (HEE s err reason log1) = Some (status_Error st)
       /\ status.Message st = Error err.
Proof.
  intros Heval Hconv log1. subst log1.
  rewrite ResolveObject_run.
  unfold error_path, gen.GetFlagKey, gen.GetContext in *.
  cbv zeta. rewrite Heval, Hconv. cbn.
  split; [reflexivity |]. split; [reflexivity |].
  apply HandleEvaluationError_keeps_message.
Qed.

Ltac nil_iff s :=
  unfold primitive_run, error_path, gen.GetFlagKey, gen.GetContext;
  cbv zeta;
  match goal with
  | |- context [match ?f (gen.FlagKey ?r) (gen.Context ?r) with _ => _ end] =>
      destruct (f (gen.FlagKey r) (gen.Context r))
        as [[[result variant] reason] [err |]]
  end;
  cbn; [| split; reflexivity];
  match goal with
  | |- context [HandleEvaluationError ?a ?b ?c ?s ?e ?r ?l] =>
      destruct (HandleEvaluationError_not_nil a b c s e r l) as [st Hst];
      rewrite Hst; split; discriminate
  end.

(** Each primitive handler returns a nil error exactly when the
    evaluator's error is nil. *)
Theorem primitive_error_iff (s : GRPCService) (req : gen.ResolveRequest)
  (log : list Event) :
  (snd (snd (ResolveBoolean' s req log)) = None
   <-> snd (eval.ResolveBooleanValue (Eval s) (gen.GetFlagKey req)
              (gen.GetContext req)) = None)
  /\ (snd (snd (ResolveString' s req log)) = None
      <-> snd (eval.ResolveStringValue (Eval s) (gen.GetFlagKey req)
                 (gen.GetContext req)) = None)
  /\ (snd (snd (ResolveInt' s req log)) = None
      <-> snd (eval.ResolveIntValue (Eval s) (gen.GetFlagKey req)
                 (gen.GetContext req)) = None)
  /\ (snd (snd (ResolveFloat' s req log)) = None
      <-> snd (eval.ResolveFloatValue (Eval s) (gen.GetFlagKey req)
                 (gen.GetContext req)) = None).
Proof.
  rewrite ResolveBoolean_run, ResolveString_run, ResolveInt_run,
    ResolveFloat_run.
  split; [nil_iff s |]. split; [nil_iff s |]. split; nil_iff s.
Qed.

(** The object handler returns a nil error exactly when the evaluator's
    error is nil and its mapping converts. *)
Theorem ResolveObject_error_iff (s : GRPCService) (req : gen.ResolveRequest)
  (log : list Event) :
  let r :=
    eval.ResolveObjectValue (Eval s) (gen.GetFlagKey req) (gen.GetContext req)
  in
  snd (snd (ResolveObject' s req log)) = None
  <-> (snd r = None
       /\ exists val, structpb_NewStruct (fst (fst (fst r))) = inl val).
Proof.
  cbv zeta. rewrite ResolveObject_run.
  unfold error_path, gen.GetFlagKey, gen.GetContext. cbv zeta.
  destruct (eval.ResolveObjectValue _ _ _)
    as [[[result variant] reason] [err |]]; cbn.
  - destruct (HandleEvaluationError_not_nil FlagNotFoundErrorCode
                TypeMismatchErrorCode marshal_error s err reason
                (log ++ [EvalCall ObjectValue (gen.FlagKey req)
                           (gen.Context req)])) as [st Hst].
    rewrite Hst. split; [discriminate | intros [H _]; discriminate H].
  - destruct (structpb_NewStruct result) as [val | cerr]; cbn.
    + split; [intros _; split; [reflexivity | exists val; reflexivity]
             | reflexivity].
    + destruct (HandleEvaluationError_not_nil FlagNotFoundErrorCode
                  TypeMismatchErrorCode marshal_error s cerr reason
                  (log ++ [EvalCall ObjectValue (gen.FlagKey req)
                             (gen.Context req)])) as [st Hst].
      rewrite Hst.
      split; [discriminate | intros [_ [val H]]; discriminate H].
Qed.

Ltac success_run H :=
  unfold primitive_run, gen.GetFlagKey, gen.GetContext in *;
  cbv zeta; rewrite H; reflexivity.

(** On success a primitive handler hands the evaluator's value, variant
    and reason through unchanged, whatever they are, and the only thing
    it adds to the log is the evaluator call: no error is logged. *)
Theorem primitive_success_passes_through (s : GRPCService)
  (req : gen.ResolveRequest) (log : list Event) (variant reason : string) :
  let log1 m :=
    log ++ [EvalCall m (gen.GetFlagKey req) (gen.GetContext req)] in
  (forall v,
      eval.ResolveBooleanValue (Eval s) (gen.GetFlagKey req) (gen.GetContext req)
      = (v, variant, reason, None) ->
      ResolveBoolean' s req log
      = (log1 BooleanValue,
         ({| gen.Value := v; gen.Reason := reason; gen.Variant := variant |},
          None)))
  /\ (forall v,
      eval.ResolveStringValue (Eval s) (gen.GetFlagKey req) (gen.GetContext req)
      = (v, variant, reason, None) ->
      ResolveString' s req log
      = (log1 StringValue,
         ({| gen.Value := v; gen.Reason := reason; gen.Variant := variant |},
          None)))
  /\ (forall v,
      eval.ResolveIntValue (Eval s) (gen.GetFlagKey req) (gen.GetContext req)
      = (v, variant, reason, None) ->
      ResolveInt' s req log
      = (log1 IntValue,
         ({| gen.Value := v; gen.Reason := reason; gen.Variant := variant |},
          None)))
  /\ (forall v,
      eval.ResolveFloatValue (Eval s) (gen.GetFlagKey req) (gen.GetContext req)
      = (v, variant, reason, None) ->
      ResolveFloat' s req log
      = (log1 FloatValue,
         ({| gen.Value := v; gen.Reason := reason; gen.Variant := variant |},
          None))).
Proof.
  cbv zeta. repeat split; intros v H.
  - rewrite ResolveBoolean_run. success_run H.
  - rewrite ResolveString_run. success_run H.
  - rewrite ResolveInt_run. success_run H.
  - rewrite ResolveFloat_run. success_run H.
Qed.

(** On success the object handler returns the converted mapping with the
    evaluator's variant and reason, and a nil error; it adds the
    evaluator call to the log and nothing else. *)
Theorem ResolveObject_success (s : GRPCService) (req : gen.ResolveRequest)
  (log : list Event) (result : list (string * any))
  (variant reason : string) (val : structpb.Struct) :
  eval.ResolveObjectValue (Eval s) (gen.GetFlagKey req) (gen.GetContext req)
  = (result, variant, reason, None) ->
  structpb_NewStruct result = inl val ->
  ResolveObject' s req log
  = (log ++ [EvalCall ObjectValue (gen.GetFlagKey req) (gen.GetContext req)],
     ({| gen.Value := Some val; gen.Reason := reason;
         gen.Variant := variant |}, None)).
Proof.
  intros Heval Hconv. rewrite ResolveObject_run.
  unfold gen.GetFlagKey, gen.GetContext in *.
  cbv zeta. rewrite Heval, Hconv. reflexivity.
Qed.

Ltac classified_run H :=
  unfold primitive_run, error_path, gen.GetFlagKey, gen.GetContext in *;
  cbv zeta; rewrite H; cbn; apply HandleEvaluationError_classified.

(** Every handler turns an evaluator error into the classifier's status
    for it: the error returned to the caller has the evaluator error's
    text as its message and the code the classifier selects for that
    text, whatever value, variant and reason came with the error. *)
Theorem evaluator_error_is_classified (s : GRPCService)
  (req : gen.ResolveRequest) (log : list Event) (variant reason : string)
  (err : error) :
  (forall v,
      eval.ResolveBooleanValue (Eval s) (gen.GetFlagKey req) (gen.GetContext req)
      = (v, variant, reason, Some err) ->
      classified FlagNotFoundErrorCode TypeMismatchErrorCode
        (snd (snd (ResolveBoolean' s req log))) err)
  /\ (forall v,
      eval.ResolveStringValue (Eval s) (gen.GetFlagKey req) (gen.GetContext req)
      = (v, variant, reason, Some err) ->
      classified FlagNotFoundErrorCode TypeMismatchErrorCode
        (snd (snd (ResolveString' s req log))) err)
  /\ (forall v,
      eval.ResolveIntValue (Eval s) (gen.GetFlagKey req) (gen.GetContext req)
      = (v, variant, reason, Some err) ->
      classified FlagNotFoundErrorCode TypeMismatchErrorCode
        (snd (snd (ResolveInt' s req log))) err)
  /\ (forall v,
      eval.ResolveFloatValue (Eval s) (gen.GetFlagKey req) (gen.GetContext req)
      = (v, variant, reason, Some err) ->
      classified FlagNotFoundErrorCode TypeMismatchErrorCode
        (snd (snd (ResolveFloat' s req log))) err)
  /\ (forall v,
      eval.ResolveObjectValue (Eval s) (gen.GetFlagKey req) (gen.GetContext req)
      = (v, variant, reason, Some err) ->
      classified FlagNotFoundErrorCode TypeMismatchErrorCode
        (snd (snd (ResolveObject' s req log))) err).
Proof.
  repeat split; intros v H.
  - rewrite ResolveBoolean_run. classified_run H.
  - rewrite ResolveString_run. classified_run H.
  - rewrite ResolveInt_run. classified_run H.
  - rewrite ResolveFloat_run. classified_run H.
  - rewrite ResolveObject_run. classified_run H.
Qed.

End Handlers.

(** When the evaluator fails, the object handler does not get to the
    conversion: the call is the same for any two converters, so it is the
    evaluator's error that is classified even if the mapping that came
    with it would not convert. *)
Theorem ResolveObject_evaluator_error_first
  (FlagNotFoundErrorCode TypeMismatchErrorCode : string)
  (marshal_error : gen.ErrorResponse -> option error)
  (NewStruct NewStruct' : list (string * any) -> structpb.Struct + error)
  (s : GRPCService) (req : gen.ResolveRequest) (log : list Event)
  (result : list (string * any)) (variant reason : string) (err : error) :
  eval.ResolveObjectValue (Eval s) (gen.GetFlagKey req) (gen.GetContext req)
  = (result, variant, reason, Some err) ->
  ResolveObject FlagNotFoundErrorCode TypeMismatchErrorCode
    marshal_error NewStruct s req log
  = ResolveObject FlagNotFoundErrorCode TypeMismatchErrorCode
      marshal_error NewStruct' s req log.
Proof.
  intro Heval. rewrite !ResolveObject_run.
  unfold gen.GetFlagKey, gen.GetContext in *.
  cbv zeta. rewrite Heval. reflexivity.
Qed.

(** ** The lifecycle *)

Section Lifecycle.

Variable loadTLSConfig : string -> string -> tls.Config + error.
Variable net_Listen : string -> string -> net.Listener + error.
Variable grpcServer_Serve : net.Listener -> option error.

Local Notation Serve' := (Serve loadTLSConfig net_Listen grpcServer_Serve).

(** One call of [Serve] on an empty log, spelled out on all its paths. *)
Lemma Serve_run (s : GRPCService) (ctx : context.Context)
  (ev : eval.IEvaluator) :
  let s' := set_Eval s ev in
  let cfg := Config s in
  let network := if ServerSocketPath cfg =? "" then "tcp" else "unix" in
  let address :=
    if ServerSocketPath cfg =? "" then (":" ++ fmt_d (Port cfg))%string
    else ServerSocketPath cfg in
  let serve_from (pre : list Event) (opts : list grpc.ServerOption) :=
    let setup :=
      pre ++ [NewServer opts; RegisterServiceServer; NetListen network address]
    in
    match net_Listen network address with
    | inr err => (setup, (s', Returned (Some err)))
    | inl lis =>
        if errgroup_Done ctx (grpcServer_Serve lis)
        then (setup ++ [GoServe lis; GracefulStop], (s', Returned None))
        else (setup ++ [GoServe lis], (s', Blocked))
    end in
  Serve' s ctx ev [] =
  if (ServerCertPath cfg =? "") || (ServerKeyPath cfg =? "")
  then serve_from [] []
  else
    match loadTLSConfig (ServerCertPath cfg) (ServerKeyPath cfg) with
    | inr err =>
        ([LoadTLSConfig (ServerCertPath cfg) (ServerKeyPath cfg)],
         (s', Returned (Some err)))
    | inl config =>
        serve_from [LoadTLSConfig (ServerCertPath cfg) (ServerKeyPath cfg)]
          [grpc.Creds (grpc.NewTLS config)]
    end.
Proof.
  cbv zeta.
  unfold Serve, func, listen, try, bind, emit, ret, return_. cbn.
  destruct (ServerCertPath (Config s) =? ""),
           (ServerKeyPath (Config s) =? ""); cbn;
    try destruct (loadTLSConfig _ _); cbn;
    destruct (ServerSocketPath (Config s) =? ""); cbn;
    try destruct (net_Listen _ _); cbn;
    try destruct (errgroup_Done _ _); reflexivity.
Qed.

Ltac serve_cases s :=
  unfold events_of, result_of; rewrite Serve_run; cbv zeta;
  destruct (String.eqb_spec (ServerCertPath (Config s)) "") as [Hc | Hc];
  destruct (String.eqb_spec (ServerKeyPath (Config s)) "") as [Hk | Hk];
  cbn [orb];
  try destruct (loadTLSConfig _ _) as [config | lerr] eqn:Hload;
  destruct (String.eqb_spec (ServerSocketPath (Config s)) "") as [Hp | Hp];
  cbv beta iota;
  try destruct (net_Listen _ _) as [lis | nerr] eqn:Hlisten;
  try match goal with
      | Hl : net_Listen _ _ = inl ?x |- _ =>
          destruct (errgroup_Done _ (grpcServer_Serve x)) eqn:Hdone
      end;
  cbn.

(** Once the accept loop has been started, [Serve] returns [nil] when the
    group's context is done, and stays blocked otherwise. *)
Lemma Serve_outcome_after_serving (s : GRPCService) (ctx : context.Context)
  (ev : eval.IEvaluator) (l : net.Listener) :
  In (GoServe l) (events_of (Serve' s ctx ev)) ->
  snd (result_of (Serve' s ctx ev))
  = if errgroup_Done ctx (grpcServer_Serve l) then Returned None
    else Blocked.
Proof.
  serve_cases s; intro Hin;
    repeat (destruct Hin as [Hin | Hin]; try discriminate Hin);
    try contradiction;
    injection Hin as <-; rewrite Hdone; reflexivity.
Qed.

(** In particular an accept loop that fails makes [Serve] return [nil]:
    the value given to [g.Go] only closes the group's context. *)
Lemma Serve_drops_accept_failure (s : GRPCService) (ctx : context.Context)
  (ev : eval.IEvaluator) (l : net.Listener) (err : error) :
  In (GoServe l) (events_of (Serve' s ctx ev)) ->
  grpcServer_Serve l = Some err ->
  snd (result_of (Serve' s ctx ev)) = Returned None.
Proof.
  intros Hin Hfail.
  rewrite (Serve_outcome_after_serving s ctx ev l Hin).
  unfold errgroup_Done. rewrite Hfail. rewrite orb_true_r. reflexivity.
Qed.

(** C5, as amended. [Serve] does not validate the pair of paths. When
    either path is empty, one alone included, nothing is loaded, the
    server is created without credentials and [Serve] goes on to create
    its listener. Only when both are non-empty is the pair loaded, before
    the listener: a load failure is returned with no listener created,
    and a loaded pair becomes the server's credentials. *)
Theorem tls_loaded_only_when_both_paths_set (s : GRPCService)
  (ctx : context.Context) (ev : eval.IEvaluator) :
  let cfg := Config s in
  let events := events_of (Serve' s ctx ev) in
  ((ServerCertPath cfg = "" \/ ServerKeyPath cfg = "") ->
   (forall c k, ~ In (LoadTLSConfig c k) events)
   /\ In (NewServer []) events
   /\ exists network address, listens events = [(network, address)])
  /\ (ServerCertPath cfg <> "" -> ServerKeyPath cfg <> "" ->
      forall err,
        loadTLSConfig (ServerCertPath cfg) (ServerKeyPath cfg) = inr err ->
        events = [LoadTLSConfig (ServerCertPath cfg) (ServerKeyPath cfg)]
        /\ snd (result_of (Serve' s ctx ev)) = Returned (Some err))
  /\ (ServerCertPath cfg <> "" -> ServerKeyPath cfg <> "" ->
      forall config,
        loadTLSConfig (ServerCertPath cfg) (ServerKeyPath cfg) = inl config ->
        exists tail,
          events
          = LoadTLSConfig (ServerCertPath cfg) (ServerKeyPath cfg)
              :: NewServer [grpc.Creds (grpc.NewTLS config)]
              :: RegisterServiceServer :: tail
          /\ exists network address, listens tail = [(network, address)]).
Proof.
  cbv zeta. split; [| split].
  - intros Hempty.
    serve_cases s;
      try (destruct Hempty; contradiction);
      (split; [intros c k Hin;
               repeat (destruct Hin as [Hin | Hin]; try discriminate Hin);
               contradiction |]);
      (split; [left; reflexivity |]);
      do 2 eexists; reflexivity.
  - intros Hcert Hkey err.
    serve_cases s; try contradiction; intro Heq; try discriminate Heq;
      injection Heq as <-; split; reflexivity.
  - intros Hcert Hkey cfg'.
    serve_cases s; try contradiction; intro Heq; try discriminate Heq;
      injection Heq as <-;
      eexists; (split; [reflexivity |]); do 2 eexists; reflexivity.
Qed.

(** C7, as amended. Whenever [Serve] gets past its TLS step (a path is
    empty, or the pair loads), it asks for exactly one listener: a
    local-domain socket at serverSocketPath when that is non-empty,
    whatever the port, and TCP on the port when it is empty. And in no
    case does a configuration with a socket path lead to a TCP
    listener. *)
Theorem transport_selection (s : GRPCService) (ctx : context.Context)
  (ev : eval.IEvaluator) :
  let cfg := Config s in
  let events := events_of (Serve' s ctx ev) in
  ((ServerCertPath cfg = "" \/ ServerKeyPath cfg = ""
    \/ exists config,
         loadTLSConfig (ServerCertPath cfg) (ServerKeyPath cfg) = inl config) ->
   (ServerSocketPath cfg <> "" ->
    listens events = [("unix", ServerSocketPath cfg)])
   /\ (ServerSocketPath cfg = "" ->
       listens events = [("tcp", (":" ++ fmt_d (Port cfg))%string)]))
  /\ (ServerSocketPath cfg <> "" ->
      forall address, ~ In ("tcp", address) (listens events)).
Proof.
  cbv zeta. split.
  - intros Hready.
    serve_cases s;
      try (destruct Hready as [? | [? | [? Heq]]];
           [contradiction | contradiction | discriminate Heq]);
      split; intro; try contradiction; reflexivity.
  - intros Hpath address.
    serve_cases s; try contradiction; intro Hin;
      repeat (destruct Hin as [Hin | Hin]; try discriminate Hin);
      contradiction.
Qed.

Ltac in_cases H :=
  repeat (destruct H as [H | H]; try discriminate H); try contradiction.

(** [Serve] assigns the evaluator to the receiver before anything can
    fail: on every path, startup failures included, the receiver ends
    with [Eval] set to the argument, and its configuration and logger as
    they were. *)
Theorem Serve_binds_evaluator (s : GRPCService) (ctx : context.Context)
  (ev : eval.IEvaluator) :
  let s' := fst (result_of (Serve' s ctx ev)) in
  Eval s' = ev /\ Config s' = Config s /\ Logger s' = Logger s.
Proof.
  cbv zeta. serve_cases s; repeat split.
Qed.

(** A non-nil error from [Serve] is a startup error: it is the error of
    loading the key pair (both paths being set) or the error of the one
    [net.Listen] call, and then the accept loop was never started and the
    server never stopped. *)
Theorem Serve_error_is_startup_error (s : GRPCService)
  (ctx : context.Context) (ev : eval.IEvaluator) (err : error) :
  let cfg := Config s in
  let events := events_of (Serve' s ctx ev) in
  snd (result_of (Serve' s ctx ev)) = Returned (Some err) ->
  ((ServerCertPath cfg <> "" /\ ServerKeyPath cfg <> ""
    /\ loadTLSConfig (ServerCertPath cfg) (ServerKeyPath cfg) = inr err
    /\ listens events = [])
   \/ (exists network address,
         listens events = [(network, address)]
         /\ net_Listen network address = inr err))
  /\ (forall l, ~ In (GoServe l) events)
  /\ ~ In GracefulStop events.
Proof.
  cbv zeta.
  serve_cases s; intro Hret; try discriminate Hret;
    injection Hret as <-;
    (split;
     [ first [ left; repeat split; assumption
             | right; do 2 eexists; split; [reflexivity | exact Hlisten] ]
     | split; [intros l Hin | intro Hin]; in_cases Hin ]).
Qed.

(** When the one [net.Listen] call fails, [Serve] returns that error; the
    accept loop is not started and nothing is stopped. *)
Theorem Serve_listen_failure (s : GRPCService) (ctx : context.Context)
  (ev : eval.IEvaluator) (network address : string) (err : error) :
  let events := events_of (Serve' s ctx ev) in
  listens events = [(network, address)] ->
  net_Listen network address = inr err ->
  snd (result_of (Serve' s ctx ev)) = Returned (Some err)
  /\ (exists pre, events = pre ++ [NetListen network address])
  /\ (forall l, ~ In (GoServe l) events)
  /\ ~ In GracefulStop events.
Proof.
  cbv zeta.
  serve_cases s; intros Hl Hfail; try discriminate Hl;
    injection Hl as <- <-; cbn in Hlisten; rewrite Hlisten in Hfail;
    try discriminate Hfail; injection Hfail as <-;
    (split; [reflexivity |]);
    (split; [first [ eexists [_; _]; reflexivity
                   | eexists [_; _; _]; reflexivity ] |]);
    (split; [intros l Hin | intro Hin]; in_cases Hin).
Qed.


(** [Serve] stays blocked exactly when the accept loop was started, the
    caller's context is never cancelled and the accept loop does not
    fail. *)
Theorem Serve_blocked_iff (s : GRPCService) (ctx : context.Context)
  (ev : eval.IEvaluator) :
  snd (result_of (Serve' s ctx ev)) = Blocked
  <-> (context.Cancelled ctx = false
       /\ exists l, In (GoServe l) (events_of (Serve' s ctx ev))
                    /\ grpcServer_Serve l = None).
Proof.
  serve_cases s; (split; [intro H; try discriminate H | intros (Hctx & l & Hin & Hl)]);
    try (in_cases Hin; fail);
    try reflexivity;
    try (in_cases Hin; injection Hin as <-;
         unfold errgroup_Done in Hdone; rewrite Hctx, Hl in Hdone;
         discriminate Hdone).
  all: unfold errgroup_Done in Hdone;
    apply orb_false_iff in Hdone; destruct Hdone as [Hctx Hserve];
    (split; [exact Hctx |]);
    eexists; (split; [do 3 (try right); try (right; left; reflexivity);
                      left; reflexivity |]);
    destruct (grpcServer_Serve _); [discriminate Hserve | reflexivity].
Qed.


(** With a socket path set the port plays no part: [Serve] does the same
    things and ends the same way for any other port. *)
Theorem Serve_ignores_port_with_socket (s : GRPCService)
  (ctx : context.Context) (ev : eval.IEvaluator) (port : Z) :
  ServerSocketPath (Config s) <> "" ->
  events_of (Serve' (with_Port s port) ctx ev) = events_of (Serve' s ctx ev)
  /\ snd (result_of (Serve' (with_Port s port) ctx ev))
     = snd (result_of (Serve' s ctx ev)).
Proof.
  intro Hpath. unfold events_of, result_of.
  rewrite !Serve_run. cbv zeta. cbn [with_Port Config Port ServerKeyPath
    ServerCertPath ServerSocketPath].
  destruct (String.eqb_spec (ServerSocketPath (Config s)) "") as [E | _];
    [contradiction |].
  destruct (ServerCertPath (Config s) =? ""), (ServerKeyPath (Config s) =? "");
    cbn [orb];
    try destruct (loadTLSConfig _ _); cbv beta iota;
    try destruct (net_Listen _ _);
    try destruct (errgroup_Done _ _); split; reflexivity.
Qed.

End Lifecycle.

(* ===================================================================== *)
(** * Concrete runs *)
(* ===================================================================== *)

Module Runs.
Import Concrete.

Local Notation svc := (service tcp_config evaluator).
Local Notation classify :=
  (HandleEvaluationError FlagNotFoundErrorCode TypeMismatchErrorCode
     marshal_error svc).
Local Notation request key := {| gen.FlagKey := key; gen.Context := None |}.
Local Notation serve accept cfg ctx :=
  (Serve loadTLSConfig net_Listen accept (service cfg evaluator) ctx evaluator).

(** C1 at the constants of pkg/model and a type-mismatch error. *)
Lemma HandleEvaluationError_status_code_witness :
  FlagNotFoundErrorCode <> TypeMismatchErrorCode
  /\ exists st,
       snd (classify (errors_New "TYPE_MISMATCH") "ERROR" [])
       = Some (status_Error st)
       /\ (Error (errors_New "TYPE_MISMATCH") = FlagNotFoundErrorCode ->
           status.Code st = codes.NotFound)
       /\ (Error (errors_New "TYPE_MISMATCH") = TypeMismatchErrorCode ->
           status.Code st = codes.InvalidArgument)
       /\ (Error (errors_New "TYPE_MISMATCH") <> FlagNotFoundErrorCode ->
           Error (errors_New "TYPE_MISMATCH") <> TypeMismatchErrorCode ->
           status.Code st = codes.Internal).
Proof.
  split; [discriminate |].
  apply HandleEvaluationError_status_code. discriminate.
Defined.

(** C2 as stated fails: an error whose message is not valid UTF-8 cannot
    be packed, and the status that comes back has no detail at all. *)
Lemma HandleEvaluationError_details_counterexample :
  ~ carries_detail
      (snd (classify (errors_New invalid_utf8) "STATIC" []))
      {| gen.ErrorCode := Error (errors_New invalid_utf8);
         gen.ErrorReason := "ERROR" |}.
Proof.
  intros (st & Hret & Hin).
  vm_compute in Hret. injection Hret as <-.
  cbn in Hin. exact Hin.
Qed.

(** C2 as amended, on a message that packs and on one that does not. *)
Lemma HandleEvaluationError_details_witness :
  (fst (classify (errors_New "FLAG_NOT_FOUND") "STATIC" []) = []
   /\ exists st,
        snd (classify (errors_New "FLAG_NOT_FOUND") "STATIC" [])
        = Some (status_Error st)
        /\ status.Details st
           = [ {| anypb.Unpacked :=
                    {| gen.ErrorCode := "FLAG_NOT_FOUND";
                       gen.ErrorReason := "ERROR" |} |} ]
        /\ carries_detail
             (snd (classify (errors_New "FLAG_NOT_FOUND") "STATIC" []))
             {| gen.ErrorCode := "FLAG_NOT_FOUND"; gen.ErrorReason := "ERROR" |})
  /\ (fst (classify (errors_New invalid_utf8) "STATIC" [])
      = [LoggerError "string field contains invalid UTF-8"]
      /\ exists st,
           snd (classify (errors_New invalid_utf8) "STATIC" [])
           = Some (status_Error st)
           /\ status.Details st = []).
Proof.
  split.
  - apply (proj1 (HandleEvaluationError_details FlagNotFoundErrorCode
                    TypeMismatchErrorCode marshal_error svc
                    (errors_New "FLAG_NOT_FOUND") "STATIC" [])).
    reflexivity.
  - apply (proj2 (HandleEvaluationError_details FlagNotFoundErrorCode
                    TypeMismatchErrorCode marshal_error svc
                    (errors_New invalid_utf8) "STATIC" [])
             (errors_New "string field contains invalid UTF-8")).
    reflexivity.
Defined.

(** C3 fails on the code. The service listens on a socket, nobody cancels
    the caller's context, and the accept loop fails: [Serve] stops the
    server and returns [nil]. *)
Theorem Serve_accept_failure_returns_nil :
  events_of (serve accept_fails unix_config never_cancelled)
  = [NewServer []; RegisterServiceServer;
     NetListen "unix" "/tmp/flagd.sock"; GoServe (net.Handle 3);
     GracefulStop]
  /\ accept_fails (net.Handle 3)
     = Some (errors_New
               "accept unix /tmp/flagd.sock: use of closed network connection")
  /\ snd (result_of (serve accept_fails unix_config never_cancelled))
     = Returned None.
Proof. repeat split. Qed.

(** C4 as stated fails: a request with an empty flagKey reaches the
    evaluator. *)
Lemma empty_flagKey_is_forwarded :
  gen.GetFlagKey (request "") = ""
  /\ eval_calls
       (events_of
          (ResolveBoolean FlagNotFoundErrorCode TypeMismatchErrorCode
             marshal_error svc (request "")))
     = [(BooleanValue, "", None)].
Proof. split; reflexivity. Qed.

(** C5 as stated fails: with a certificate path and no key path, [Serve]
    creates an unencrypted server and its listener, and serves. *)
Lemma half_tls_reaches_listener :
  ServerCertPath half_tls_config <> ""
  /\ ServerKeyPath half_tls_config = ""
  /\ events_of (serve serve_until_stopped half_tls_config cancelled)
     = [NewServer []; RegisterServiceServer; NetListen "tcp" ":8014";
        GoServe (net.Handle 3); GracefulStop]
  /\ listens (events_of (serve serve_until_stopped half_tls_config cancelled))
     = [("tcp", ":8014")].
Proof. split; [discriminate |]. repeat split. Qed.

(** C5 as amended, on a half-configured pair, on a pair that does not
    load and on one that does. *)
Lemma tls_loaded_only_when_both_paths_set_witness :
  ((forall c k,
       ~ In (LoadTLSConfig c k)
           (events_of (serve serve_until_stopped half_tls_config cancelled)))
   /\ In (NewServer [])
         (events_of (serve serve_until_stopped half_tls_config cancelled))
   /\ exists network address,
        listens (events_of (serve serve_until_stopped half_tls_config cancelled))
        = [(network, address)])
  /\ (events_of (serve serve_until_stopped bad_tls_unix_config cancelled)
      = [LoadTLSConfig "/tmp/missing.crt" "/tmp/missing.key"]
      /\ snd (result_of (serve serve_until_stopped bad_tls_unix_config cancelled))
         = Returned (Some (errors_New "open: no such file or directory")))
  /\ (exists tail,
        events_of (serve serve_until_stopped tls_config cancelled)
        = LoadTLSConfig "/etc/flagd/tls.crt" "/etc/flagd/tls.key"
            :: NewServer [grpc.Creds (grpc.NewTLS (tls.Handle 1))]
            :: RegisterServiceServer :: tail
        /\ exists network address, listens tail = [(network, address)]).
Proof.
  split; [| split].
  - apply (proj1 (tls_loaded_only_when_both_paths_set loadTLSConfig net_Listen
                    serve_until_stopped (service half_tls_config evaluator)
                    cancelled evaluator)).
    right. reflexivity.
  - apply (proj1 (proj2 (tls_loaded_only_when_both_paths_set loadTLSConfig
                           net_Listen serve_until_stopped
                           (service bad_tls_unix_config evaluator)
                           cancelled evaluator)));
      [discriminate | discriminate | reflexivity].
  - apply (proj2 (proj2 (tls_loaded_only_when_both_paths_set loadTLSConfig
                           net_Listen serve_until_stopped
                           (service tls_config evaluator)
                           cancelled evaluator)));
      [discriminate | discriminate | reflexivity].
Defined.

(** C6 on the concrete evaluator, one flag per type. *)
Lemma primitive_resolve_success_witness :
  snd (ResolveBoolean FlagNotFoundErrorCode TypeMismatchErrorCode
         marshal_error svc (request "myBoolFlag") [])
  = ({| gen.Value := true; gen.Reason := "STATIC"; gen.Variant := "variantA" |},
     None)
  /\ snd (ResolveString FlagNotFoundErrorCode TypeMismatchErrorCode
            marshal_error svc (request "myStringFlag") [])
     = ({| gen.Value := "blue"; gen.Reason := "STATIC";
           gen.Variant := "variantA" |}, None)
  /\ snd (ResolveInt FlagNotFoundErrorCode TypeMismatchErrorCode
            marshal_error svc (request "myIntFlag") [])
     = ({| gen.Value := 42%Z; gen.Reason := "STATIC";
           gen.Variant := "variantA" |}, None)
  /\ snd (ResolveFloat FlagNotFoundErrorCode TypeMismatchErrorCode
            marshal_error svc (request "myFloatFlag") [])
     = ({| gen.Value := 4609434218613702656%Z; gen.Reason := "STATIC";
           gen.Variant := "variantA" |}, None).
Proof.
  destruct (primitive_resolve_success FlagNotFoundErrorCode
              TypeMismatchErrorCode marshal_error svc [])
    as (HB & HS & HI & HF).
  split; [apply HB; reflexivity |].
  split; [apply HS; reflexivity |].
  split; [apply HI; reflexivity | apply HF; reflexivity].
Defined.

(** C7 as stated fails: with a socket path and a key pair that does not
    load, [Serve] returns the load error and asks for no listener. *)
Lemma socket_path_without_listener :
  ServerSocketPath bad_tls_unix_config <> ""
  /\ listens (events_of (serve serve_until_stopped bad_tls_unix_config cancelled))
     = []
  /\ snd (result_of (serve serve_until_stopped bad_tls_unix_config cancelled))
     = Returned (Some (errors_New "open: no such file or directory")).
Proof. split; [discriminate |]. split; reflexivity. Qed.

(** C7 as amended: a socket path next to a port, and a port alone behind
    a key pair that loads. *)
Lemma transport_selection_witness :
  listens (events_of (serve serve_until_stopped unix_config cancelled))
  = [("unix", "/tmp/flagd.sock")]
  /\ listens (events_of (serve serve_until_stopped tls_config cancelled))
     = [("tcp", ":8014")]
  /\ forall address,
       ~ In ("tcp", address)
           (listens
              (events_of (serve serve_until_stopped unix_config cancelled))).
Proof.
  split; [| split].
  - apply (proj1 (proj1 (transport_selection loadTLSConfig net_Listen
                           serve_until_stopped (service unix_config evaluator)
                           cancelled evaluator)
                    (or_introl eq_refl))).
    discriminate.
  - apply (proj2 (proj1 (transport_selection loadTLSConfig net_Listen
                           serve_until_stopped (service tls_config evaluator)
                           cancelled evaluator)
                    (or_intror (or_intror (ex_intro _ (tls.Handle 1) eq_refl))))).
    reflexivity.
  - apply (proj2 (transport_selection loadTLSConfig net_Listen
                    serve_until_stopped (service unix_config evaluator)
                    cancelled evaluator)).
    discriminate.
Defined.

(** C8 on the concrete evaluator: the object flag whose value holds a
    channel. *)
Lemma conversion_failure_is_classified_witness :
  let err := errors_New "proto: invalid type: chan int" in
  let log1 := [EvalCall ObjectValue "myBadObjectFlag" None] in
  fst (ResolveObject FlagNotFoundErrorCode TypeMismatchErrorCode marshal_error
         NewStruct svc (request "myBadObjectFlag") [])
  = fst (classify err "STATIC" log1)
  /\ snd (ResolveObject FlagNotFoundErrorCode TypeMismatchErrorCode
            marshal_error NewStruct svc (request "myBadObjectFlag") [])
     = ({| gen.Value := None; gen.Reason := ""; gen.Variant := "" |},
        snd (classify err "STATIC" log1))
  /\ exists st,
       snd (classify err "STATIC" log1) = Some (status_Error st)
       /\ status.Message st = Error err.
Proof.
  apply (@conversion_failure_is_classified FlagNotFoundErrorCode
           TypeMismatchErrorCode marshal_error NewStruct svc
           (request "myBadObjectFlag") []
           [("a", float64_any 4607182418800017408%Z);
            ("b", slice_any [other_any "chan int"])]
           "variantA" "STATIC"
           (errors_New "proto: invalid type: chan int"));
    reflexivity.
Defined.

(** C9 on the evaluator that returns outputs together with its error. *)
Lemma error_response_is_zero_witness :
  let failing := service tcp_config failing_evaluator in
  (exists st,
      snd (ResolveBoolean FlagNotFoundErrorCode TypeMismatchErrorCode
             marshal_error failing (request "myBoolFlag") [])
      = ({| gen.Value := false; gen.Reason := ""; gen.Variant := "" |},
         Some (status_Error st)))
  /\ (exists st,
      snd (ResolveString FlagNotFoundErrorCode TypeMismatchErrorCode
             marshal_error failing (request "myBoolFlag") [])
      = ({| gen.Value := ""; gen.Reason := ""; gen.Variant := "" |},
         Some (status_Error st)))
  /\ (exists st,
      snd (ResolveInt FlagNotFoundErrorCode TypeMismatchErrorCode
             marshal_error failing (request "myBoolFlag") [])
      = ({| gen.Value := 0%Z; gen.Reason := ""; gen.Variant := "" |},
         Some (status_Error st)))
  /\ (exists st,
      snd (ResolveFloat FlagNotFoundErrorCode TypeMismatchErrorCode
             marshal_error failing (request "myBoolFlag") [])
      = ({| gen.Value := 0%Z : structpb.float64; gen.Reason := "";
            gen.Variant := "" |},
         Some (status_Error st)))
  /\ (exists st,
      snd (ResolveObject FlagNotFoundErrorCode TypeMismatchErrorCode
             marshal_error NewStruct failing (request "myBoolFlag") [])
      = ({| gen.Value := None; gen.Reason := ""; gen.Variant := "" |},
         Some (status_Error st))).
Proof.
  intro failing.
  destruct (error_response_is_zero FlagNotFoundErrorCode
              TypeMismatchErrorCode marshal_error NewStruct failing
              (request "myBoolFlag") [] "on" "ERROR" (errors_New "GENERAL"))
    as (HB & HS & HI & HF & HO).
  split; [exact (HB true eq_refl) |].
  split; [exact (HS "blue" eq_refl) |].
  split; [exact (HI 42%Z eq_refl) |].
  split; [exact (HF 4609434218613702656%Z eq_refl) |].
  exact (HO [("a", bool_any true)] eq_refl).
Defined.

(** ** Further runs *)

(** A plain error and a status error with the same text. *)
Lemma HandleEvaluationError_text_only_witness :
  classify (errors_New "rpc error: code = NotFound desc = gone") "ERROR" []
  = classify
      (status_Error {| status.Code := codes.NotFound;
                       status.Message := "gone"; status.Details := [] |})
      "STATIC" [].
Proof.
  apply (@HandleEvaluationError_text_only FlagNotFoundErrorCode
           TypeMismatchErrorCode marshal_error svc svc).
  reflexivity.
Defined.

Lemma primitive_success_passes_through_witness :
  let s := service tcp_config static_evaluator in
  ResolveBoolean FlagNotFoundErrorCode TypeMismatchErrorCode marshal_error
    s (request "k") []
  = ([EvalCall BooleanValue "k" None],
     ({| gen.Value := true; gen.Reason := "TARGETING_MATCH";
         gen.Variant := "on" |}, None))
  /\ ResolveString FlagNotFoundErrorCode TypeMismatchErrorCode marshal_error
       s (request "k") []
     = ([EvalCall StringValue "k" None],
        ({| gen.Value := "blue"; gen.Reason := "TARGETING_MATCH";
            gen.Variant := "on" |}, None))
  /\ ResolveInt FlagNotFoundErrorCode TypeMismatchErrorCode marshal_error
       s (request "k") []
     = ([EvalCall IntValue "k" None],
        ({| gen.Value := 42%Z; gen.Reason := "TARGETING_MATCH";
            gen.Variant := "on" |}, None))
  /\ ResolveFloat FlagNotFoundErrorCode TypeMismatchErrorCode marshal_error
       s (request "k") []
     = ([EvalCall FloatValue "k" None],
        ({| gen.Value := 4609434218613702656%Z;
            gen.Reason := "TARGETING_MATCH"; gen.Variant := "on" |}, None)).
Proof.
  intro s.
  pose proof (@primitive_success_passes_through FlagNotFoundErrorCode
                TypeMismatchErrorCode marshal_error s (request "k") []
                "on" "TARGETING_MATCH") as H.
  cbv zeta in H. destruct H as (HB & HS & HI & HF).
  split; [exact (HB true eq_refl) |].
  split; [exact (HS "blue" eq_refl) |].
  split; [exact (HI 42%Z eq_refl) | exact (HF 4609434218613702656%Z eq_refl)].
Defined.

Lemma ResolveObject_success_witness :
  ResolveObject FlagNotFoundErrorCode TypeMismatchErrorCode marshal_error
    NewStruct svc (request "myObjectFlag") []
  = ([EvalCall ObjectValue "myObjectFlag" None],
     ({| gen.Value :=
           Some [("a", structpb.NumberValue 4607182418800017408%Z);
                 ("b", structpb.StringValue "x")];
         gen.Reason := "STATIC"; gen.Variant := "variantA" |}, None)).
Proof.
  apply (@ResolveObject_success FlagNotFoundErrorCode TypeMismatchErrorCode
           marshal_error NewStruct svc (request "myObjectFlag") []
           [("a", float64_any 4607182418800017408%Z); ("b", string_any "x")]
           "variantA" "STATIC");
    reflexivity.
Defined.

Lemma evaluator_error_is_classified_witness :
  let s := service tcp_config failing_evaluator in
  let general := errors_New "GENERAL" in
  classified FlagNotFoundErrorCode TypeMismatchErrorCode
    (snd (snd (ResolveBoolean FlagNotFoundErrorCode TypeMismatchErrorCode
                 marshal_error s (request "k") []))) general
  /\ classified FlagNotFoundErrorCode TypeMismatchErrorCode
       (snd (snd (ResolveString FlagNotFoundErrorCode TypeMismatchErrorCode
                    marshal_error s (request "k") []))) general
  /\ classified FlagNotFoundErrorCode TypeMismatchErrorCode
       (snd (snd (ResolveInt FlagNotFoundErrorCode TypeMismatchErrorCode
                    marshal_error s (request "k") []))) general
  /\ classified FlagNotFoundErrorCode TypeMismatchErrorCode
       (snd (snd (ResolveFloat FlagNotFoundErrorCode TypeMismatchErrorCode
                    marshal_error s (request "k") []))) general
  /\ classified FlagNotFoundErrorCode TypeMismatchErrorCode
       (snd (snd (ResolveObject FlagNotFoundErrorCode TypeMismatchErrorCode
                    marshal_error NewStruct s (request "k") []))) general.
Proof.
  intros s general.
  destruct (@evaluator_error_is_classified FlagNotFoundErrorCode
              TypeMismatchErrorCode marshal_error NewStruct s (request "k") []
              "on" "ERROR" general)
    as (HB & HS & HI & HF & HO).
  split; [exact (HB true eq_refl) |].
  split; [exact (HS "blue" eq_refl) |].
  split; [exact (HI 42%Z eq_refl) |].
  split; [exact (HF 4609434218613702656%Z eq_refl) |].
  exact (HO [("a", bool_any true)] eq_refl).
Defined.

Lemma ResolveObject_evaluator_error_first_witness :
  let s := service tcp_config failing_evaluator in
  ResolveObject FlagNotFoundErrorCode TypeMismatchErrorCode marshal_error
    NewStruct s (request "k") []
  = ResolveObject FlagNotFoundErrorCode TypeMismatchErrorCode marshal_error
      no_NewStruct s (request "k") [].
Proof.
  intro s.
  apply (@ResolveObject_evaluator_error_first FlagNotFoundErrorCode
           TypeMismatchErrorCode marshal_error NewStruct no_NewStruct s
           (request "k") [] [("a", bool_any true)] "on" "ERROR"
           (errors_New "GENERAL")).
  reflexivity.
Defined.

Lemma Serve_error_is_startup_error_witness :
  let events :=
    events_of (serve serve_until_stopped bad_tls_unix_config cancelled) in
  ((ServerCertPath bad_tls_unix_config <> ""
    /\ ServerKeyPath bad_tls_unix_config <> ""
    /\ loadTLSConfig (ServerCertPath bad_tls_unix_config)
         (ServerKeyPath bad_tls_unix_config)
       = inr (errors_New "open: no such file or directory")
    /\ listens events = [])
   \/ (exists network address,
         listens events = [(network, address)]
         /\ net_Listen network address
            = inr (errors_New "open: no such file or directory")))
  /\ (forall l, ~ In (GoServe l) events)
  /\ ~ In GracefulStop events.
Proof.
  apply (@Serve_error_is_startup_error loadTLSConfig net_Listen
           serve_until_stopped (service bad_tls_unix_config evaluator)
           cancelled evaluator (errors_New "open: no such file or directory")).
  reflexivity.
Defined.

Lemma Serve_listen_failure_witness :
  let events :=
    events_of (serve serve_until_stopped busy_port_config cancelled) in
  let err := errors_New "listen tcp :8013: bind: address already in use" in
  snd (result_of (serve serve_until_stopped busy_port_config cancelled))
  = Returned (Some err)
  /\ (exists pre, events = pre ++ [NetListen "tcp" ":8013"])
  /\ (forall l, ~ In (GoServe l) events)
  /\ ~ In GracefulStop events.
Proof.
  apply (@Serve_listen_failure loadTLSConfig net_Listen serve_until_stopped
           (service busy_port_config evaluator) cancelled evaluator
           "tcp" ":8013"
           (errors_New "listen tcp :8013: bind: address already in use"));
    reflexivity.
Defined.



Lemma Serve_ignores_port_with_socket_witness :
  events_of (serve serve_until_stopped unix_config cancelled)
  = events_of
      (Serve loadTLSConfig net_Listen serve_until_stopped
         (with_Port (service unix_config evaluator) 9999) cancelled evaluator)
  /\ snd (result_of (serve serve_until_stopped unix_config cancelled))
     = snd (result_of
              (Serve loadTLSConfig net_Listen serve_until_stopped
                 (with_Port (service unix_config evaluator) 9999)
                 cancelled evaluator)).
Proof.
  destruct (@Serve_ignores_port_with_socket loadTLSConfig net_Listen
              serve_until_stopped (service unix_config evaluator) cancelled
              evaluator 9999%Z) as [He Hr]; [discriminate |].
  split; symmetry; assumption.
Defined.

End Runs.
